(** * Bridge form validation of venus-protocol-interface (useBridgeForm)

    Shallow embedding of the validation logic of the hook [useBridgeForm]:
    the values derived from the remote data (token price, bridge status,
    native-token balance), [validateBridgeFeeMantissa],
    [validateAmountMantissa] and the [amountTokens] field of [formSchema].

    Numbers are bignumber.js values in its default configuration
    (DECIMAL_PLACES = 20, ROUNDING_MODE = ROUND_HALF_UP, DEBUG off): a
    finite decimal (an exact rational here), NaN, or a signed infinity.
    bignumber.js also has a signed zero; it is not modelled (zero is
    unsigned). *)

From Stdlib Require Import ZArith QArith Lqa String Ascii List Bool Lia.
Import ListNotations.
Open Scope string_scope.

(** ** BigNumber values *)

Inductive BigNumber : Type :=
| BNum (q : Q)            (* finite value *)
| BNaN                    (* NaN *)
| BInf (negative : bool). (* Infinity / -Infinity *)

Definition bn_zero : BigNumber := BNum 0.

Definition bn_of_Z (z : Z) : BigNumber := BNum (inject_Z z).

(** [comparedTo]: [None] stands for JavaScript's [null] (a NaN operand). *)
Definition bn_comparedTo (x y : BigNumber) : option comparison :=
  match x, y with
  | BNaN, _ | _, BNaN => None
  | BNum a, BNum b => Some (Qcompare a b)
  | BInf false, BInf false | BInf true, BInf true => Some Eq
  | BInf false, _ => Some Gt
  | BInf true, _ => Some Lt
  | _, BInf false => Some Lt
  | _, BInf true => Some Gt
  end.

Definition bn_gt (x y : BigNumber) : bool :=
  match bn_comparedTo x y with Some Gt => true | _ => false end.

Definition bn_lt (x y : BigNumber) : bool :=
  match bn_comparedTo x y with Some Lt => true | _ => false end.

Definition bn_lte (x y : BigNumber) : bool :=
  match bn_comparedTo x y with Some Lt | Some Eq => true | _ => false end.

Definition bn_isZero (x : BigNumber) : bool :=
  match x with BNum a => Qeq_bool a 0 | _ => false end.

Definition Qneg_bool (a : Q) : bool := (Qnum a <? 0)%Z.

(** [times] *)
Definition bn_times (x y : BigNumber) : BigNumber :=
  match x, y with
  | BNaN, _ | _, BNaN => BNaN
  | BNum a, BNum b => BNum (a * b)
  | BInf s, BInf t => BInf (xorb s t)
  | BInf s, BNum b | BNum b, BInf s =>
      if Qeq_bool b 0 then BNaN else BInf (xorb s (Qneg_bool b))
  end.

(** [minus] *)
Definition bn_minus (x y : BigNumber) : BigNumber :=
  match x, y with
  | BNaN, _ | _, BNaN => BNaN
  | BNum a, BNum b => BNum (a - b)
  | BInf s, BInf t => if Bool.eqb s t then BNaN else BInf s
  | BInf s, BNum _ => BInf s
  | BNum _, BInf t => BInf (negb t)
  end.

(** Rounding of a quotient to DECIMAL_PLACES = 20 digits after the point,
    ROUND_HALF_UP (ties away from zero). *)
Definition decimal_places_scale : positive := Pos.pow 10 20.

Definition round_decimal_places (q : Q) : Q :=
  let n := (Qnum q * Zpos decimal_places_scale)%Z in
  let d := Zpos (Qden q) in
  let m := Z.abs n in
  let t := (m / d)%Z in
  let r := (m mod d)%Z in
  let t' := if (d <=? 2 * r)%Z then (t + 1)%Z else t in
  Qmake (Z.sgn n * t') decimal_places_scale.

(** [dividedBy] *)
Definition bn_dividedBy (x y : BigNumber) : BigNumber :=
  match x, y with
  | BNaN, _ | _, BNaN => BNaN
  | BInf _, BInf _ => BNaN
  | BInf s, BNum b => BInf (xorb s (Qneg_bool b))
  | BNum _, BInf _ => BNum 0
  | BNum a, BNum b =>
      if Qeq_bool b 0 then
        (if Qeq_bool a 0 then BNaN else BInf (Qneg_bool a))
      else BNum (round_decimal_places (a / b))
  end.

(** ** [new BigNumber(v)] for a string [v]

    bignumber.js v9 with DEBUG off (no exception).  The constructor first
    tests [isNumeric] ([/^-?(?:\d+(?:\.\d{0,})?|\.\d+)(?:e[+-]?\d+)?$/i]) and
    reads such a string as a decimal, overflowing to Infinity when the
    exponent of its leading digit exceeds MAX_EXP = 1e9 and underflowing to
    zero below MIN_EXP = -1e9.  Any other string goes to [parseNumeric],
    which trims whitespace and a leading '+', reads [Infinity], [-Infinity],
    [NaN] and [-NaN], strips a 0x/0b/0o prefix and, when the string changed,
    constructs again (with base 16, 2 or 8 after a prefix).  Base-b digits
    use the lower-case alphabet, upper case being accepted when the string
    has no lower-case letter; a base-b fraction is rounded to
    DECIMAL_PLACES.  Strings are ASCII; whitespace is the ASCII part of
    JavaScript's [\s]. *)

Definition is_digit (c : ascii) : bool :=
  let n := nat_of_ascii c in (Nat.leb 48 n && Nat.leb n 57)%bool.

Definition digit_value (c : ascii) : Z := Z.of_nat (nat_of_ascii c - 48).

Definition is_lower (c : ascii) : bool :=
  let n := nat_of_ascii c in (Nat.leb 97 n && Nat.leb n 122)%bool.

Definition is_upper (c : ascii) : bool :=
  let n := nat_of_ascii c in (Nat.leb 65 n && Nat.leb n 90)%bool.

(** [\w] *)
Definition is_word_char (c : ascii) : bool :=
  (is_digit c || is_lower c || is_upper c || Ascii.eqb c "_")%bool.

(** [\s] on ASCII: tab, line feed, vertical tab, form feed, carriage return,
    space. *)
Definition is_js_space (c : ascii) : bool :=
  let n := nat_of_ascii c in
  (Nat.eqb n 32 || (Nat.leb 9 n && Nat.leb n 13))%bool.

Definition to_lower (c : ascii) : ascii :=
  if is_upper c then ascii_of_nat (nat_of_ascii c + 32) else c.

(** Leading digits: their value, their count and the rest of the string. *)
Fixpoint take_digits (s : string) : Z * nat * string :=
  match s with
  | String c rest =>
      if is_digit c then
        let '(v, n, r) := take_digits rest in
        ((digit_value c * 10 ^ Z.of_nat n + v)%Z, S n, r)
      else (0%Z, O, s)
  | EmptyString => (0%Z, O, s)
  end.

Definition parse_exponent (s : string) : option Z :=
  let digits_to_end (r : string) : option Z :=
    match take_digits r with
    | (v, S _, EmptyString) => Some v
    | _ => None
    end in
  match s with
  | EmptyString => Some 0%Z
  | String c r =>
      if (Ascii.eqb c "e" || Ascii.eqb c "E")%bool then
        match r with
        | String "+" r' => digits_to_end r'
        | String "-" r' => option_map Z.opp (digits_to_end r')
        | _ => digits_to_end r
        end
      else None
  end.

(** [mantissa * 10 ^ exponent] *)
Definition decimal_to_Q (mantissa exponent : Z) : Q :=
  if (0 <=? exponent)%Z then inject_Z (mantissa * 10 ^ exponent)
  else Qmake mantissa (Z.to_pos (10 ^ (- exponent))).

(** An unsigned string of the [isNumeric] syntax, as its digits read as an
    integer and the power of ten of its last digit. *)
Definition unsigned_decimal_parts (s : string) : option (Z * Z) :=
  let '(iv, il, r1) := take_digits s in
  let '(fv, fl, r2) :=
    match r1 with
    | String "." r => take_digits r
    | _ => (0%Z, O, r1)
    end in
  let has_dot := match r1 with String "." _ => true | _ => false end in
  if (Nat.eqb il 0 && Nat.eqb fl 0)%bool then None
  else if (negb has_dot && negb (Nat.eqb fl 0))%bool then None
  else
    match parse_exponent r2 with
    | Some e => Some ((iv * 10 ^ Z.of_nat fl + fv)%Z, (e - Z.of_nat fl)%Z)
    | None => None
    end.

(** [isNumeric.test(str)], with the sign. *)
Definition numeric_parts (s : string) : option (bool * Z * Z) :=
  match s with
  | String "-" r =>
      option_map (fun '(m, e) => (true, m, e)) (unsigned_decimal_parts r)
  | _ => option_map (fun '(m, e) => (false, m, e)) (unsigned_decimal_parts s)
  end.

Fixpoint count_digits_fuel (fuel : nat) (m : Z) : Z :=
  match fuel with
  | O => 1
  | S f => if (m <? 10)%Z then 1 else (1 + count_digits_fuel f (m / 10))%Z
  end.

(** Number of decimal digits of a positive integer. *)
Definition count_digits (m : Z) : Z :=
  count_digits_fuel (Z.to_nat (Z.log2 m + 1)) m.

Definition MAX_EXP : Z := 1000000000.

(** The decimal path of the constructor: [m * 10 ^ e10], the exponent of
    its leading digit checked against MAX_EXP and MIN_EXP = -MAX_EXP. *)
Definition decimal_BigNumber (negative : bool) (m e10 : Z) : BigNumber :=
  if (m =? 0)%Z then BNum 0
  else
    let e := (count_digits m - 1 + e10)%Z in
    if (MAX_EXP <? e)%Z then BInf negative
    else if (e <? - MAX_EXP)%Z then BNum 0
    else BNum (if negative then - decimal_to_Q m e10 else decimal_to_Q m e10).

(** The lower-case alphabet of base 16, 8 or 2. *)
Definition base_digit (base : Z) (c : ascii) : option Z :=
  let n := Z.of_nat (nat_of_ascii c) in
  let v := if is_digit c then Some (n - 48)%Z
           else if is_lower c then Some (n - 87)%Z
           else None in
  match v with
  | Some d => if (d <? base)%Z then Some d else None
  | None => None
  end.

(** The alphabet check of the constructor with a base: every character a
    digit of the base, or a single '.' that is not the first character.
    Returns the digits read as an integer and the number of digits after
    the point. *)
Fixpoint base_digits_from (base : Z) (l : list ascii) (first dot : bool)
  (acc : Z) (k : nat) : option (Z * nat) :=
  match l with
  | [] => Some (acc, k)
  | c :: rest =>
      match base_digit base c with
      | Some d =>
          base_digits_from base rest false dot (acc * base + d)%Z
                           (if dot then S k else k)
      | None =>
          if (Ascii.eqb c "." && negb first && negb dot)%bool
          then base_digits_from base rest false true acc k
          else None
      end
  end.

Definition base_digits (base : Z) (l : list ascii) : option (Z * nat) :=
  base_digits_from base l true false 0%Z O.

(** The constructor with base [base]: sign, alphabet check (retried in
    lower case when the string has no lower-case letter), conversion. *)
Definition base_BigNumber (base : Z) (str : string) : option BigNumber :=
  let '(negative, body) :=
    match str with
    | String "-" r => (true, list_ascii_of_string r)
    | _ => (false, list_ascii_of_string str)
    end in
  let digits :=
    match base_digits base body with
    | Some r => Some r
    | None =>
        if negb (existsb is_lower body)
        then base_digits base (map to_lower body) else None
    end in
  match digits with
  | Some (n, k) =>
      let q := match k with
               | O => inject_Z n
               | S _ => round_decimal_places (Qmake n (Z.to_pos (base ^ Z.of_nat k)))
               end in
      Some (BNum (if negative then - q else q))
  | None => None
  end.

(** [str.replace(whitespaceOrPlus, '')] with
    [whitespaceOrPlus = /^\s*\+(?=[\w.])|^\s+|\s+$/g]. *)
Fixpoint drop_spaces (s : string) : string :=
  match s with
  | String c r => if is_js_space c then drop_spaces r else s
  | EmptyString => EmptyString
  end.

Fixpoint drop_trailing_spaces (s : string) : string :=
  match s with
  | String c r =>
      let r' := drop_trailing_spaces r in
      if (is_js_space c && String.eqb r' "")%bool then EmptyString else String c r'
  | EmptyString => EmptyString
  end.

Definition strip_whitespace_or_plus (s : string) : string :=
  let t := drop_spaces s in
  let t' :=
    match t with
    | String "+" (String c _ as r) =>
        if (is_word_char c || Ascii.eqb c ".")%bool then r else t
    | _ => t
    end in
  drop_trailing_spaces t'.

(** [basePrefix = /^(-?)0([xbo])(?=\w[\w.]*$)/i]: the sign, the base and the
    rest. *)
Definition match_base_prefix (s : string) : option (string * Z * string) :=
  let '(p1, r) := match s with
                  | String "-" r => ("-", r)
                  | _ => ("", s)
                  end in
  match r with
  | String "0" (String x rest) =>
      let base :=
        if (Ascii.eqb x "x" || Ascii.eqb x "X")%bool then Some 16%Z
        else if (Ascii.eqb x "b" || Ascii.eqb x "B")%bool then Some 2%Z
        else if (Ascii.eqb x "o" || Ascii.eqb x "O")%bool then Some 8%Z
        else None in
      match base, rest with
      | Some b, String c tl =>
          if (is_word_char c
              && forallb (fun d => is_word_char d || Ascii.eqb d ".")
                         (list_ascii_of_string tl))%bool
          then Some (p1, b, rest) else None
      | _, _ => None
      end
  | _ => None
  end.

(** [s.replace(dotAfter, '$1').replace(dotBefore, '0.$1')] with
    [dotAfter = /^([^.]+)\.$/] and [dotBefore = /^\.([^.]+)$/]. *)
Definition no_dot (l : list ascii) : bool :=
  forallb (fun c => negb (Ascii.eqb c ".")) l.

Definition dot_after (l : list ascii) : list ascii :=
  match rev l with
  | c :: (_ :: _) as xr =>
      if (Ascii.eqb c "." && no_dot xr)%bool then rev xr else l
  | _ => l
  end.

Definition dot_before (l : list ascii) : list ascii :=
  match l with
  | c :: (_ :: _) as y =>
      if (Ascii.eqb c "." && no_dot y)%bool then "0"%char :: "."%char :: y else l
  | _ => l
  end.

Definition dot_fix (s : string) : string :=
  string_of_list_ascii (dot_before (dot_after (list_ascii_of_string s))).

(** [parseNumeric(x, str, isNum, b)]; [construct] is [new BigNumber]. *)
Definition parseNumeric (construct : string -> option Z -> BigNumber)
  (str : string) (b : option Z) : BigNumber :=
  let s := strip_whitespace_or_plus str in
  if String.eqb s "Infinity" then BInf false
  else if String.eqb s "-Infinity" then BInf true
  else if (String.eqb s "NaN" || String.eqb s "-NaN")%bool then BNaN
  else
    let '(s1, base) :=
      match match_base_prefix s, b with
      | Some (p1, pb, rest), None => (p1 ++ rest, Some pb)
      | Some (p1, pb, rest), Some bb =>
          if (pb =? bb)%Z then (p1 ++ rest, Some bb) else (s, Some bb)
      | None, _ => (s, b)
      end in
    let s2 := match b with Some _ => dot_fix s1 | None => s1 end in
    if negb (String.eqb str s2) then construct s2 base else BNaN.

(** [new BigNumber(str, b)].  Every reconstruction shortens the string,
    except [dotBefore], which leads to a final step; the fuel given by
    [new_BigNumber] is never exhausted. *)
Fixpoint bn_construct (fuel : nat) (str : string) (b : option Z) : BigNumber :=
  match fuel with
  | O => BNaN
  | S f =>
      match b with
      | None =>
          match numeric_parts str with
          | Some (negative, m, e) => decimal_BigNumber negative m e
          | None => parseNumeric (bn_construct f) str None
          end
      | Some base =>
          match base_BigNumber base str with
          | Some x => x
          | None => parseNumeric (bn_construct f) str (Some base)
          end
      end
  end.

Definition new_BigNumber (s : string) : BigNumber :=
  bn_construct (String.length s + 4) s None.

Example new_BigNumber_50 : new_BigNumber "50" = BNum (50 # 1).
Proof. reflexivity. Qed.

Example new_BigNumber_frac : new_BigNumber "-1.25e1" = BNum (-(125 # 10)).
Proof. reflexivity. Qed.

Example new_BigNumber_abc : new_BigNumber "abc" = BNaN.
Proof. reflexivity. Qed.

Example new_BigNumber_empty : new_BigNumber "" = BNaN.
Proof. reflexivity. Qed.

Example new_BigNumber_spaces : new_BigNumber " 500 " = BNum (inject_Z 500).
Proof. reflexivity. Qed.

Example new_BigNumber_plus : new_BigNumber "+500" = BNum (inject_Z 500).
Proof. reflexivity. Qed.

Example new_BigNumber_hex : new_BigNumber "0x1F4" = BNum (inject_Z 500).
Proof. reflexivity. Qed.

Example new_BigNumber_hex_mixed_case : new_BigNumber "0x1fA" = BNaN.
Proof. reflexivity. Qed.

Example new_BigNumber_binary : new_BigNumber "-0b101" = BNum (- inject_Z 5).
Proof. reflexivity. Qed.

Example new_BigNumber_hex_fraction :
  bn_comparedTo (new_BigNumber "0x1.8") (BNum (3 # 2)) = Some Eq.
Proof. reflexivity. Qed.

Example new_BigNumber_overflow : new_BigNumber "1e1000000001" = BInf false.
Proof. reflexivity. Qed.

Example new_BigNumber_underflow : new_BigNumber "-1e-1000000001" = BNum 0.
Proof. reflexivity. Qed.

Example new_BigNumber_infinity : new_BigNumber " -Infinity" = BInf true.
Proof. reflexivity. Qed.

Example dividedBy_third :
  bn_dividedBy (bn_of_Z 2) (bn_of_Z 3)
  = BNum (Qmake 66666666666666666667 decimal_places_scale).
Proof. reflexivity. Qed.

(** ** Dates

    A JavaScript [Date] as milliseconds since the epoch, [None] for an
    Invalid Date.  [fromUnixTime] of date-fns is [new Date(t * 1000)];
    [toNumber] of the (integral) reset timestamp is taken exactly and the
    [Date] constructor truncates its argument.  [getDate] and [setDate] work
    in the local time zone of the browser (ECMA-262, 21.4.1). *)

Definition JsDate := option Z.

Definition max_time_value : Z := 8640000000000000.

Definition time_clip (t : Z) : JsDate :=
  if (Z.abs t <=? max_time_value)%Z then Some t else None.

Definition fromUnixTime (t : BigNumber) : JsDate :=
  match t with
  | BNum q => time_clip (Z.quot (Qnum q * 1000) (Zpos (Qden q)))
  | _ => None
  end.

Definition ms_per_day : Z := 86400000.

(** A local time zone: [tz_offset_at t] is the offset from UTC, in
    milliseconds, in force at the instant [t] (ECMA-262's offset of
    [LocalTime]); [tz_utc_of_local] is ECMA-262's [UTC] on local times,
    which resolves a local time skipped or repeated by a change of offset
    as the implementation does. *)
Record TimeZone : Type := mkTimeZone {
  tz_offset_at : Z -> Z;
  tz_utc_of_local : Z -> Z;
}.

(** [LocalTime(t)] *)
Definition LocalTime (tz : TimeZone) (t : Z) : Z := (t + tz_offset_at tz t)%Z.

Definition utc_zone : TimeZone := mkTimeZone (fun _ => 0%Z) (fun tl => tl).

(** [date.setDate(date.getDate() + 1)]: [MakeDay] of the local year, month
    and date plus one is the next local day, at the same local time of day;
    the new time value is [TimeClip(UTC(LocalTime(t) + msPerDay))].  An
    Invalid Date stays invalid. *)
Definition setDate_next_day (tz : TimeZone) (d : JsDate) : JsDate :=
  match d with
  | Some t => time_clip (tz_utc_of_local tz (LocalTime tz t + ms_per_day))
  | None => None
  end.



(** ** Inputs of the hook *)

(** [getXvsBridgeStatusData] *)
Record BridgeStatus : Type := mkBridgeStatus {
  status_maxSingleTransactionLimitUsd : BigNumber;
  status_maxDailyLimitUsd : BigNumber;
  status_totalTransferredLast24HourUsd : BigNumber;
  status_dailyLimitResetTimestamp : BigNumber;
}.

(** The remote data the hook reads, and its [walletBalanceTokens] prop;
    [None] is a query without data. *)
Record BridgeFormEnv : Type := mkBridgeFormEnv {
  tokenUsdPriceData : option BigNumber;      (* getTokenUsdPriceData?.tokenPriceUsd *)
  xvsBridgeStatusData : option BridgeStatus; (* getXvsBridgeStatusData *)
  nativeTokenBalanceData : option BigNumber; (* getBalanceOfNativeTokenData?.balanceMantissa *)
  walletBalanceTokens : BigNumber;
  localTimeZone : TimeZone;                  (* the browser's time zone *)
}.

Section Derived.
Variable env : BridgeFormEnv.

(** [getTokenUsdPriceData?.tokenPriceUsd || new BigNumber(0)]: a BigNumber
    object is always truthy. *)
Definition xvsPriceUsd : BigNumber :=
  match tokenUsdPriceData env with Some p => p | None => bn_zero end.

Definition nativeTokenBalanceMantissa : BigNumber :=
  match nativeTokenBalanceData env with Some b => b | None => bn_zero end.

Definition maxSingleTransactionLimitUsd : BigNumber :=
  match xvsBridgeStatusData env with
  | Some st => status_maxSingleTransactionLimitUsd st
  | None => bn_zero
  end.

Definition dailyLimitResetTimestamp : BigNumber :=
  match xvsBridgeStatusData env with
  | Some st => status_dailyLimitResetTimestamp st
  | None => bn_zero
  end.

(** [[remainingXvsDailyLimitUsd, remainingXvsDailyLimitTokens]] *)
Definition remainingXvsDailyLimit : BigNumber * BigNumber :=
  match xvsBridgeStatusData env with
  | Some st =>
      let remainingUsdValue :=
        bn_minus (status_maxDailyLimitUsd st)
                 (status_totalTransferredLast24HourUsd st) in
      let remaningTokensAmount :=
        if negb (bn_isZero xvsPriceUsd)
        then bn_dividedBy remainingUsdValue xvsPriceUsd
        else bn_zero in
      (remainingUsdValue, remaningTokensAmount)
  | None => (bn_zero, bn_zero)
  end.

Definition remainingXvsDailyLimitUsd : BigNumber := fst remainingXvsDailyLimit.
Definition remainingXvsDailyLimitTokens : BigNumber := snd remainingXvsDailyLimit.

End Derived.

(** ** [validateBridgeFeeMantissa] *)

(** The [unknown] argument: a BigNumber instance or any other value
    ([undefined], ...). *)
Inductive JsValue : Type :=
| JsBigNumber (b : BigNumber)
| JsOther.

Definition validateBridgeFeeMantissa (env : BridgeFormEnv) (bridgeFeeMantissa : JsValue)
  : bool :=
  match bridgeFeeMantissa with
  | JsBigNumber b =>
      (bn_gt b bn_zero && bn_lte b (nativeTokenBalanceMantissa env))%bool
  | JsOther => true
  end.

(** ** [validateAmountMantissa]

    Each [ctx.addIssue] call becomes an element of the returned list, in
    call order.  An issue records the values handed to the formatters: the
    limit in tokens (to [formatTokensToReadableValue]), the limit in dollars
    (to [convertDollarsToCents] and then [formatCentsToReadableValue]) and,
    for the daily limit, the [date] of the message. *)
Inductive issue : Type :=
| SingleTransactionLimitExceeded (limitTokens limitUsd : BigNumber)
| DailyTransactionLimitExceeded (limitTokens limitUsd : BigNumber) (date : JsDate)
| DoesNotHaveEnoughXvs.

Definition validateAmountMantissa (env : BridgeFormEnv) (v : string) : list issue :=
  let xvsAmountTokens := new_BigNumber v in
  let xvsAmountUsd := bn_times xvsAmountTokens (xvsPriceUsd env) in
  let isSingleTransactionLimitExceeded :=
    bn_gt xvsAmountUsd (maxSingleTransactionLimitUsd env) in
  let maxSingleTransactionLimitTokens :=
    bn_dividedBy (maxSingleTransactionLimitUsd env) (xvsPriceUsd env) in
  let doesNotHaveEnoughXvs := bn_lt (walletBalanceTokens env) xvsAmountTokens in
  let single_issues :=
    if isSingleTransactionLimitExceeded
    then [SingleTransactionLimitExceeded maxSingleTransactionLimitTokens
                                         (maxSingleTransactionLimitUsd env)]
    else [] in
  let isDailyTransactionLimitExceeded :=
    bn_gt xvsAmountUsd (remainingXvsDailyLimitUsd env) in
  let daily_issues :=
    if isDailyTransactionLimitExceeded
    then [DailyTransactionLimitExceeded
            (remainingXvsDailyLimitTokens env)
            (remainingXvsDailyLimitUsd env)
            (setDate_next_day (localTimeZone env)
               (fromUnixTime (dailyLimitResetTimestamp env)))]
    else [] in
  let balance_issues := if doesNotHaveEnoughXvs then [DoesNotHaveEnoughXvs] else [] in
  single_issues ++ daily_issues ++ balance_issues.

(** ** The [amountTokens] field of [formSchema]:
    [z.string().min(1).superRefine(validateAmountMantissa)].

    The form value is always a string.  A failed [min(1)] check is not
    fatal in zod, so the refinement runs as well and its issues follow. *)
Inductive amount_field_issue : Type :=
| AmountTooSmall
| AmountCustom (i : issue).

Definition amountTokens_field_issues (env : BridgeFormEnv) (v : string)
  : list amount_field_issue :=
  (if Nat.ltb (String.length v) 1 then [AmountTooSmall] else [])
  ++ map AmountCustom (validateAmountMantissa env v).

(** Kinds of issue, to ask whether a violation is reported. *)
Definition is_single_limit (i : issue) : bool :=
  match i with SingleTransactionLimitExceeded _ _ => true | _ => false end.

Definition is_daily_limit (i : issue) : bool :=
  match i with DailyTransactionLimitExceeded _ _ _ => true | _ => false end.

Definition is_insufficient_balance (i : issue) : bool :=
  match i with DoesNotHaveEnoughXvs => true | _ => false end.

(** ** Scenarios *)

(** Price, limits and balance in whole units; [maxDailyLimit] may be
    [Infinity] (an unlimited daily limit); the reset timestamp in seconds. *)
Definition scenario_env_at (tz : TimeZone) (reset : Z)
  (balance price singleLimit : Z) (dailyLimit : BigNumber)
  (used : Z) : BridgeFormEnv :=
  {| tokenUsdPriceData := Some (bn_of_Z price);
     xvsBridgeStatusData :=
       Some {| status_maxSingleTransactionLimitUsd := bn_of_Z singleLimit;
               status_maxDailyLimitUsd := dailyLimit;
               status_totalTransferredLast24HourUsd := bn_of_Z used;
               status_dailyLimitResetTimestamp := bn_of_Z reset |};
     nativeTokenBalanceData := Some (bn_of_Z 1000000);
     walletBalanceTokens := bn_of_Z balance;
     localTimeZone := tz |}.

Definition scenario_env (balance price singleLimit : Z) (dailyLimit : BigNumber)
  (used : Z) : BridgeFormEnv :=
  scenario_env_at utc_zone 1700000000 balance price singleLimit dailyLimit used.

Example scenario_valid :
  validateAmountMantissa (scenario_env 100 1 1000 (bn_of_Z 1000) 0) "50" = [].
Proof. reflexivity. Qed.

Example scenario_multiple :
  map is_single_limit
    (validateAmountMantissa (scenario_env 10 1 100 (BInf false) 0) "5000")
  = [true; false].
Proof. reflexivity. Qed.

(** ** Facts about BigNumber comparison *)

Lemma bn_comparedTo_sym (x y : BigNumber) :
  bn_comparedTo y x = option_map CompOpp (bn_comparedTo x y).
Proof.
  destruct x as [a| |[]], y as [b| |[]]; simpl; try reflexivity.
  rewrite (Qcompare_antisym a b). reflexivity.
Qed.

Lemma bn_lte_not_gt (x y : BigNumber) :
  bn_lte x y = true -> bn_gt x y = false.
Proof.
  unfold bn_lte, bn_gt. destruct (bn_comparedTo x y) as [[]|]; congruence.
Qed.

Lemma bn_lte_not_lt_rev (x y : BigNumber) :
  bn_lte x y = true -> bn_lt y x = false.
Proof.
  unfold bn_lte, bn_lt. rewrite (bn_comparedTo_sym x y).
  destruct (bn_comparedTo x y) as [[]|]; simpl; congruence.
Qed.

(** Whether each kind of violation is reported depends on its own test
    only. *)
Lemma existsb_single_limit (env : BridgeFormEnv) (v : string) :
  existsb is_single_limit (validateAmountMantissa env v)
  = bn_gt (bn_times (new_BigNumber v) (xvsPriceUsd env))
          (maxSingleTransactionLimitUsd env).
Proof.
  unfold validateAmountMantissa; cbv zeta.
  destruct (bn_gt _ (maxSingleTransactionLimitUsd env)),
           (bn_gt _ (remainingXvsDailyLimitUsd env)),
           (bn_lt _ _); reflexivity.
Qed.

Lemma existsb_daily_limit (env : BridgeFormEnv) (v : string) :
  existsb is_daily_limit (validateAmountMantissa env v)
  = bn_gt (bn_times (new_BigNumber v) (xvsPriceUsd env))
          (remainingXvsDailyLimitUsd env).
Proof.
  unfold validateAmountMantissa; cbv zeta.
  destruct (bn_gt _ (maxSingleTransactionLimitUsd env)),
           (bn_gt _ (remainingXvsDailyLimitUsd env)),
           (bn_lt _ _); reflexivity.
Qed.

Lemma existsb_insufficient_balance (env : BridgeFormEnv) (v : string) :
  existsb is_insufficient_balance (validateAmountMantissa env v)
  = bn_lt (walletBalanceTokens env) (new_BigNumber v).
Proof.
  unfold validateAmountMantissa; cbv zeta.
  destruct (bn_gt _ (maxSingleTransactionLimitUsd env)),
           (bn_gt _ (remainingXvsDailyLimitUsd env)),
           (bn_lt _ _); reflexivity.
Qed.

(** The issue list when none of the three tests holds, and when only the
    balance test holds. *)
Lemma validateAmountMantissa_tests (env : BridgeFormEnv) (v : string) :
  bn_gt (bn_times (new_BigNumber v) (xvsPriceUsd env))
        (maxSingleTransactionLimitUsd env) = false ->
  bn_gt (bn_times (new_BigNumber v) (xvsPriceUsd env))
        (remainingXvsDailyLimitUsd env) = false ->
  validateAmountMantissa env v
  = if bn_lt (walletBalanceTokens env) (new_BigNumber v)
    then [DoesNotHaveEnoughXvs] else [].
Proof.
  intros Hs Hd. unfold validateAmountMantissa; cbv zeta.
  rewrite Hs, Hd. reflexivity.
Qed.

(** ** Claims about [validateAmountMantissa] *)

(** C1: when [amountUsd <= maxSingleTransactionLimitUsd],
    [amountUsd <= remainingDailyUsd] and [amountTokens <= walletBalanceTokens]
    (with [amountUsd = amountTokens * tokenPriceUsd]), no violation is
    reported. *)
Theorem validateAmountMantissa_within_limits (env : BridgeFormEnv) (v : string) :
  bn_lte (bn_times (new_BigNumber v) (xvsPriceUsd env))
         (maxSingleTransactionLimitUsd env) = true ->
  bn_lte (bn_times (new_BigNumber v) (xvsPriceUsd env))
         (remainingXvsDailyLimitUsd env) = true ->
  bn_lte (new_BigNumber v) (walletBalanceTokens env) = true ->
  validateAmountMantissa env v = [].
Proof.
  intros Hs Hd Hb.
  rewrite validateAmountMantissa_tests by (apply bn_lte_not_gt; assumption).
  rewrite (bn_lte_not_lt_rev _ _ Hb). reflexivity.
Qed.

Lemma validateAmountMantissa_within_limits_witness :
  validateAmountMantissa (scenario_env 100 1 1000 (bn_of_Z 1000) 0) "50" = [].
Proof.
  apply validateAmountMantissa_within_limits; vm_compute; reflexivity.
Defined.

(** C2: a SingleLimitExceeded violation is reported exactly when
    [amountTokens * tokenPriceUsd > maxSingleTransactionLimitUsd]; with
    balance 100, amount 50, price 30 and single limit 1000 (1500 USD) it is
    reported, whatever the daily limit and its use. *)
Theorem single_limit_reported_iff (env : BridgeFormEnv) (v : string) :
  existsb is_single_limit (validateAmountMantissa env v)
  = bn_gt (bn_times (new_BigNumber v) (xvsPriceUsd env))
          (maxSingleTransactionLimitUsd env)
  /\ (forall (dailyLimit : BigNumber) (used : Z),
        existsb is_single_limit
          (validateAmountMantissa (scenario_env 100 30 1000 dailyLimit used) "50")
        = true).
Proof.
  split.
  - apply existsb_single_limit.
  - intros dailyLimit used. rewrite existsb_single_limit. reflexivity.
Qed.

(** C3: a DailyLimitExceeded violation is reported exactly when
    [amountTokens * tokenPriceUsd > remainingDailyUsd] with
    [remainingDailyUsd = maxDailyLimitUsd - totalTransferredLast24HourUsd];
    with balance 100, amount 50, price 1, daily limit 1000 and 980 used it is
    reported, whatever the single limit. *)
Theorem daily_limit_reported_iff (env : BridgeFormEnv) (st : BridgeStatus)
  (v : string) :
  xvsBridgeStatusData env = Some st ->
  existsb is_daily_limit (validateAmountMantissa env v)
  = bn_gt (bn_times (new_BigNumber v) (xvsPriceUsd env))
          (bn_minus (status_maxDailyLimitUsd st)
                    (status_totalTransferredLast24HourUsd st))
  /\ (forall singleLimit : Z,
        existsb is_daily_limit
          (validateAmountMantissa (scenario_env 100 1 singleLimit (bn_of_Z 1000) 980) "50")
        = true).
Proof.
  intros Hst. split.
  - rewrite existsb_daily_limit. unfold remainingXvsDailyLimitUsd,
      remainingXvsDailyLimit. rewrite Hst. reflexivity.
  - intros singleLimit. rewrite existsb_daily_limit. reflexivity.
Qed.

Lemma daily_limit_reported_iff_witness :
  existsb is_daily_limit
    (validateAmountMantissa (scenario_env 100 1 1000 (bn_of_Z 1000) 980) "50")
  = bn_gt (bn_times (new_BigNumber "50") (bn_of_Z 1))
          (bn_minus (bn_of_Z 1000) (bn_of_Z 980)).
Proof.
  refine (proj1 (daily_limit_reported_iff
                  (scenario_env 100 1 1000 (bn_of_Z 1000) 980)
                  {| status_maxSingleTransactionLimitUsd := bn_of_Z 1000;
                     status_maxDailyLimitUsd := bn_of_Z 1000;
                     status_totalTransferredLast24HourUsd := bn_of_Z 980;
                     status_dailyLimitResetTimestamp := bn_of_Z 1700000000 |}
                  "50" _)).
  reflexivity.
Defined.

(** C4: an InsufficientBalance violation is reported exactly when
    [walletBalanceTokens < amountTokens]; when the single and daily limits
    are satisfied it is the only violation, e.g. for balance 10 and
    amount 50. *)
Theorem insufficient_balance_reported_iff (env : BridgeFormEnv) (v : string) :
  existsb is_insufficient_balance (validateAmountMantissa env v)
  = bn_lt (walletBalanceTokens env) (new_BigNumber v)
  /\ (bn_lte (bn_times (new_BigNumber v) (xvsPriceUsd env))
             (maxSingleTransactionLimitUsd env) = true ->
      bn_lte (bn_times (new_BigNumber v) (xvsPriceUsd env))
             (remainingXvsDailyLimitUsd env) = true ->
      bn_lt (walletBalanceTokens env) (new_BigNumber v) = true ->
      validateAmountMantissa env v = [DoesNotHaveEnoughXvs])
  /\ validateAmountMantissa (scenario_env 10 1 1000 (bn_of_Z 1000) 0) "50"
     = [DoesNotHaveEnoughXvs].
Proof.
  split; [apply existsb_insufficient_balance|]. split.
  - intros Hs Hd Hb.
    rewrite validateAmountMantissa_tests by (apply bn_lte_not_gt; assumption).
    rewrite Hb. reflexivity.
  - reflexivity.
Qed.

Lemma insufficient_balance_reported_iff_witness :
  validateAmountMantissa (scenario_env 10 1 1000 (bn_of_Z 1000) 0) "50"
  = [DoesNotHaveEnoughXvs].
Proof.
  apply (proj1 (proj2 (insufficient_balance_reported_iff
                         (scenario_env 10 1 1000 (bn_of_Z 1000) 0) "50")));
    reflexivity.
Defined.

(** C5: the three tests are independent: each violation is reported exactly
    when its own test holds, so all applicable ones appear together; with
    balance 10, amount 5000, price 1, single limit 100 and an unlimited
    ([Infinity]) daily limit, both SingleLimitExceeded and
    InsufficientBalance are reported. *)
Theorem violations_independent (env : BridgeFormEnv) (v : string) :
  existsb is_single_limit (validateAmountMantissa env v)
  = bn_gt (bn_times (new_BigNumber v) (xvsPriceUsd env))
          (maxSingleTransactionLimitUsd env)
  /\ existsb is_daily_limit (validateAmountMantissa env v)
     = bn_gt (bn_times (new_BigNumber v) (xvsPriceUsd env))
             (remainingXvsDailyLimitUsd env)
  /\ existsb is_insufficient_balance (validateAmountMantissa env v)
     = bn_lt (walletBalanceTokens env) (new_BigNumber v)
  /\ (forall used : Z,
        validateAmountMantissa (scenario_env 10 1 100 (BInf false) used) "5000"
        = [SingleTransactionLimitExceeded (bn_dividedBy (bn_of_Z 100) (bn_of_Z 1))
                                          (bn_of_Z 100);
           DoesNotHaveEnoughXvs]).
Proof.
  split; [apply existsb_single_limit|].
  split; [apply existsb_daily_limit|].
  split; [apply existsb_insufficient_balance|].
  intros used. reflexivity.
Qed.

(** ** Sign facts used for negative amounts *)

Lemma Qneg_facts (a : Q) :
  a < 0 -> Qeq_bool a 0 = false /\ Qneg_bool a = true.
Proof.
  destruct a as [n d]. unfold Qlt, Qeq_bool, Qneg_bool; simpl. intros H.
  split.
  - destruct (Z.eqb (n * 1) 0) eqn:E; [|reflexivity].
    apply Z.eqb_eq in E. lia.
  - apply Z.ltb_lt. lia.
Qed.

Lemma Qnonneg_not_neg (a : Q) : 0 <= a -> Qneg_bool a = false.
Proof.
  destruct a as [n d]. unfold Qle, Qneg_bool; simpl. intros H.
  apply Z.ltb_ge. lia.
Qed.

Lemma Qneg_times_nonneg (a p : Q) : a < 0 -> 0 <= p -> a * p <= 0.
Proof.
  destruct a as [an ad], p as [pn pd]. unfold Qlt, Qle, Qmult; simpl.
  intros Ha Hp. nia.
Qed.

Lemma bn_lt_num (a b : Q) : bn_lt (BNum a) (BNum b) = true -> a < b.
Proof.
  unfold bn_lt; simpl. destruct (a ?= b)%Q eqn:E; try discriminate.
  intros _. apply Qlt_alt. exact E.
Qed.

Lemma bn_lte_num (a b : Q) : bn_lte (BNum a) (BNum b) = true -> a <= b.
Proof.
  unfold bn_lte; simpl. destruct (a ?= b)%Q eqn:E; try discriminate; intros _.
  - apply Qeq_alt in E. rewrite E. apply Qle_refl.
  - apply Qlt_le_weak, Qlt_alt. exact E.
Qed.

Ltac bn_num_hyps :=
  repeat match goal with
  | H : bn_lt (BNum _) (BNum _) = true |- _ => apply bn_lt_num in H
  | H : bn_lte (BNum _) (BNum _) = true |- _ => apply bn_lte_num in H
  end.

Lemma bn_neg_times_nonneg_not_gt (a p s : BigNumber) :
  bn_lt a bn_zero = true -> bn_lte bn_zero p = true -> bn_lte bn_zero s = true ->
  bn_gt (bn_times a p) s = false.
Proof.
  unfold bn_zero.
  destruct a as [qa| |[]], p as [qp| |[]], s as [qs| |[]];
    intros Ha Hp Hs; bn_num_hyps;
    unfold bn_lt, bn_lte, bn_gt in *; simpl in *;
    try discriminate; try reflexivity.
  - destruct (qa * qp ?= qs)%Q eqn:E; try reflexivity.
    apply Qgt_alt in E. pose proof (Qneg_times_nonneg qa qp Ha Hp).
    exfalso. apply (Qlt_irrefl 0). apply (Qle_lt_trans _ qs); [assumption|].
    apply (Qlt_le_trans _ (qa * qp)); assumption.
  - destruct (Qneg_facts qa Ha) as [-> ->]. reflexivity.
  - destruct (Qneg_facts qa Ha) as [-> ->]. reflexivity.
  - rewrite (Qnonneg_not_neg qp Hp). destruct (Qeq_bool qp 0); reflexivity.
  - rewrite (Qnonneg_not_neg qp Hp). destruct (Qeq_bool qp 0); reflexivity.
Qed.

Lemma bn_neg_not_above_nonneg (a b : BigNumber) :
  bn_lt a bn_zero = true -> bn_lte bn_zero b = true -> bn_lt b a = false.
Proof.
  unfold bn_zero.
  destruct a as [qa| |[]], b as [qb| |[]];
    intros Ha Hb; bn_num_hyps;
    unfold bn_lt, bn_lte in *; simpl in *;
    try discriminate; try reflexivity.
  destruct (qb ?= qa)%Q eqn:E; try reflexivity.
  apply Qlt_alt in E. exfalso. apply (Qlt_irrefl 0).
  apply (Qle_lt_trans _ qb); [assumption|]. apply (Qlt_trans _ qa); assumption.
Qed.

(** C9: a negative amount is neither clamped nor rejected: when the wallet
    balance, the price, the single-transaction limit and the remaining daily
    amount are all non-negative, it passes with no violation. *)
Theorem negative_amount_passes (env : BridgeFormEnv) (v : string) :
  bn_lt (new_BigNumber v) bn_zero = true ->
  bn_lte bn_zero (walletBalanceTokens env) = true ->
  bn_lte bn_zero (xvsPriceUsd env) = true ->
  bn_lte bn_zero (maxSingleTransactionLimitUsd env) = true ->
  bn_lte bn_zero (remainingXvsDailyLimitUsd env) = true ->
  validateAmountMantissa env v = [].
Proof.
  intros Ha Hb Hp Hs Hd.
  rewrite validateAmountMantissa_tests
    by (apply bn_neg_times_nonneg_not_gt; assumption).
  rewrite (bn_neg_not_above_nonneg _ _ Ha Hb). reflexivity.
Qed.

Lemma negative_amount_passes_witness :
  validateAmountMantissa (scenario_env 100 1 1000 (bn_of_Z 1000) 0) "-5" = [].
Proof.
  apply negative_amount_passes; vm_compute; reflexivity.
Defined.

(** ** Claims about [remainingXvsDailyLimitTokens] *)

(** An environment with a negative token price. *)
Definition negative_price_env : BridgeFormEnv :=
  scenario_env 100 (-2) 1000 (bn_of_Z 1000) 0.

(** C6, as stated: the remaining daily amount in tokens is 0 whenever the
    price is not positive.  It fails for the price -2: the code only guards
    a zero price, and gives 1000 / -2 = -500 tokens. *)
Lemma remaining_tokens_negative_price :
  bn_gt (xvsPriceUsd negative_price_env) bn_zero = false
  /\ bn_comparedTo (remainingXvsDailyLimitTokens negative_price_env) (bn_of_Z (-500))
     = Some Eq
  /\ bn_isZero (remainingXvsDailyLimitTokens negative_price_env) = false.
Proof. vm_compute. repeat split. Qed.

(** C6, amended: with the bridge status loaded, the remaining daily amount in
    tokens is [remainingDailyUsd / tokenPriceUsd] (BigNumber division)
    whenever the price is non-zero; it is 0 when the price is zero (no
    division is made) and 0 when no bridge status is loaded. *)
Theorem remaining_tokens_guarded (env : BridgeFormEnv) :
  (bn_isZero (xvsPriceUsd env) = true ->
   remainingXvsDailyLimitTokens env = bn_zero)
  /\ (xvsBridgeStatusData env = None ->
      remainingXvsDailyLimitTokens env = bn_zero)
  /\ (forall st : BridgeStatus,
        xvsBridgeStatusData env = Some st ->
        bn_isZero (xvsPriceUsd env) = false ->
        remainingXvsDailyLimitTokens env
        = bn_dividedBy (remainingXvsDailyLimitUsd env) (xvsPriceUsd env)).
Proof.
  unfold remainingXvsDailyLimitTokens, remainingXvsDailyLimitUsd,
    remainingXvsDailyLimit.
  split; [|split].
  - intros Hz. destruct (xvsBridgeStatusData env); simpl; [rewrite Hz|]; reflexivity.
  - intros Hn. rewrite Hn. reflexivity.
  - intros st Hst Hz. rewrite Hst, Hz. reflexivity.
Qed.

Lemma remaining_tokens_guarded_witness :
  remainingXvsDailyLimitTokens (scenario_env 100 0 1000 (bn_of_Z 1000) 0) = bn_zero
  /\ remainingXvsDailyLimitTokens negative_price_env
     = bn_dividedBy (remainingXvsDailyLimitUsd negative_price_env)
                    (xvsPriceUsd negative_price_env).
Proof.
  split.
  - apply (proj1 (remaining_tokens_guarded _)). reflexivity.
  - refine (proj2 (proj2 (remaining_tokens_guarded negative_price_env))
              (mkBridgeStatus (bn_of_Z 1000) (bn_of_Z 1000) (bn_of_Z 0)
                              (bn_of_Z 1700000000)) _ _);
      reflexivity.
Defined.

(** ** Claim about malformed amount strings *)

Lemma bn_times_NaN_l (x : BigNumber) : bn_times BNaN x = BNaN.
Proof. reflexivity. Qed.

Lemma bn_gt_NaN_l (x : BigNumber) : bn_gt BNaN x = false.
Proof. reflexivity. Qed.

Lemma bn_lt_NaN_r (x : BigNumber) : bn_lt x BNaN = false.
Proof. destruct x as [| |[]]; reflexivity. Qed.

(** C7, as stated: a non-numeric string is rejected before the validator by
    a format check.  It fails: ["abc"] passes the only check before the
    refinement ([min(1)]), reaches [validateAmountMantissa], is parsed as
    NaN, and the field reports no issue at all. *)
Lemma non_numeric_amount_accepted :
  new_BigNumber "abc" = BNaN
  /\ Nat.ltb (String.length "abc") 1 = false
  /\ amountTokens_field_issues (scenario_env 100 1 1000 (bn_of_Z 1000) 0) "abc" = [].
Proof. repeat split. Qed.

(** C7, amended: the field's only presence/format check is [min(1)], which
    rejects the empty string; any string the BigNumber parser reads as NaN
    (non-numeric or empty) produces no violation in the validator and no
    runtime failure, so a non-empty non-numeric string is accepted by the
    field. *)
Theorem malformed_amount_only_presence_checked (env : BridgeFormEnv) (v : string) :
  new_BigNumber v = BNaN ->
  validateAmountMantissa env v = []
  /\ amountTokens_field_issues env v
     = (if Nat.eqb (String.length v) 0 then [AmountTooSmall] else []).
Proof.
  intros Hv.
  assert (Hval : validateAmountMantissa env v = []).
  { unfold validateAmountMantissa; cbv zeta. rewrite Hv, bn_times_NaN_l,
      !bn_gt_NaN_l, bn_lt_NaN_r. reflexivity. }
  split; [exact Hval|].
  unfold amountTokens_field_issues. rewrite Hval. simpl.
  destruct (String.length v) as [|n]; reflexivity.
Qed.

Lemma malformed_amount_only_presence_checked_witness :
  amountTokens_field_issues (scenario_env 100 1 1000 (bn_of_Z 1000) 0) "" = [AmountTooSmall]
  /\ amountTokens_field_issues (scenario_env 100 1 1000 (bn_of_Z 1000) 0) "abc" = [].
Proof.
  split.
  - apply (proj2 (malformed_amount_only_presence_checked _ "" eq_refl)).
  - apply (proj2 (malformed_amount_only_presence_checked _ "abc" eq_refl)).
Defined.

(** ** Claim about the data carried by the violations *)








(** ** Claim about [validateBridgeFeeMantissa] *)

(** C10: a value that is not a BigNumber (e.g. a missing fee estimate)
    always passes; a BigNumber fee passes exactly when it is greater than 0
    and at most the native-token balance mantissa (for finite values: when
    [0 < fee <= balance]). *)
Theorem bridge_fee_validation (env : BridgeFormEnv) :
  validateBridgeFeeMantissa env JsOther = true
  /\ (forall b : BigNumber,
        validateBridgeFeeMantissa env (JsBigNumber b) = true
        <-> bn_gt b bn_zero = true
            /\ bn_lte b (nativeTokenBalanceMantissa env) = true)
  /\ (forall fee balance : Q,
        nativeTokenBalanceMantissa env = BNum balance ->
        (validateBridgeFeeMantissa env (JsBigNumber (BNum fee)) = true
         <-> 0 < fee /\ fee <= balance)).
Proof.
  split; [reflexivity|]. split.
  - intros b. simpl. apply andb_true_iff.
  - intros fee balance Hbal. simpl. rewrite Hbal, andb_true_iff.
    unfold bn_gt, bn_lte, bn_zero; simpl. split.
    + intros [H1 H2]. split.
      * destruct (fee ?= 0)%Q eqn:E; try discriminate. apply Qgt_alt. exact E.
      * apply (bn_lte_num fee balance). exact H2.
    + intros [H1 H2]. split.
      * apply Qgt_alt in H1. rewrite H1. reflexivity.
      * destruct (fee ?= balance)%Q eqn:E; [reflexivity|reflexivity|].
        apply Qgt_alt in E. exfalso. exact (Qlt_not_le _ _ E H2).
Qed.

Definition fee_env : BridgeFormEnv :=
  {| tokenUsdPriceData := Some (bn_of_Z 1);
     xvsBridgeStatusData := None;
     nativeTokenBalanceData := Some (bn_of_Z 10);
     walletBalanceTokens := bn_of_Z 0;
     localTimeZone := utc_zone |}.

Lemma bridge_fee_validation_witness :
  (validateBridgeFeeMantissa fee_env (JsBigNumber (bn_of_Z 5)) = true
   <-> 0 < inject_Z 5 /\ inject_Z 5 <= inject_Z 10).
Proof.
  exact (proj2 (proj2 (bridge_fee_validation fee_env)) (inject_Z 5) (inject_Z 10)
           eq_refl).
Defined.

(** ** Further properties of the validation code *)

Lemma bn_gt_num_mono (x y : Q) (s : BigNumber) :
  x <= y -> bn_gt (BNum x) s = true -> bn_gt (BNum y) s = true.
Proof.
  intros Hxy. unfold bn_gt.
  destruct s as [qs| |[]]; simpl; try discriminate; try reflexivity.
  destruct (x ?= qs)%Q eqn:E; try discriminate. intros _.
  apply Qgt_alt in E. destruct (y ?= qs)%Q eqn:F; try reflexivity.
  - apply Qeq_alt in F. exfalso. lra.
  - apply Qlt_alt in F. exfalso. lra.
Qed.

Lemma bn_lt_num_mono (b : BigNumber) (x y : Q) :
  x <= y -> bn_lt b (BNum x) = true -> bn_lt b (BNum y) = true.
Proof.
  intros Hxy. unfold bn_lt.
  destruct b as [qb| |[]]; simpl; try discriminate; try reflexivity.
  destruct (qb ?= x)%Q eqn:E; try discriminate. intros _.
  apply Qlt_alt in E. destruct (qb ?= y)%Q eqn:F; try reflexivity.
  - apply Qeq_alt in F. exfalso. lra.
  - apply Qgt_alt in F. exfalso. lra.
Qed.

Lemma bn_gt_num_num (x y : Q) : bn_gt (BNum x) (BNum y) = true <-> y < x.
Proof.
  unfold bn_gt; simpl. rewrite Qgt_alt.
  destruct (x ?= y)%Q; split; congruence.
Qed.

Lemma existsb_nil_false {A : Type} (f : A -> bool) : existsb f [] = false.
Proof. reflexivity. Qed.

(** A valid amount stays valid when it is lowered: with a finite
    non-negative price, if [v] yields no violation then every finite amount
    [w] with [w <= v] yields none either. *)
Theorem valid_amount_downward_closed (env : BridgeFormEnv) (v w : string)
  (a b p : Q) :
  new_BigNumber v = BNum a -> new_BigNumber w = BNum b -> b <= a ->
  xvsPriceUsd env = BNum p -> 0 <= p ->
  validateAmountMantissa env v = [] -> validateAmountMantissa env w = [].
Proof.
  intros Hv Hw Hba Hp Hp0 Hvalid.
  assert (Hs := existsb_single_limit env v).
  assert (Hd := existsb_daily_limit env v).
  assert (Hb := existsb_insufficient_balance env v).
  rewrite Hvalid, existsb_nil_false, Hv, Hp in *. simpl in Hs, Hd.
  assert (Hmul : b * p <= a * p) by (apply Qmult_le_compat_r; assumption).
  rewrite validateAmountMantissa_tests; rewrite ?Hw, ?Hp; simpl.
  - destruct (bn_lt (walletBalanceTokens env) (BNum b)) eqn:E; [|reflexivity].
    apply (bn_lt_num_mono _ b a Hba) in E. congruence.
  - destruct (bn_gt (BNum (b * p)) (maxSingleTransactionLimitUsd env)) eqn:E;
      [|reflexivity].
    apply (bn_gt_num_mono _ (a * p) _ Hmul) in E. congruence.
  - destruct (bn_gt (BNum (b * p)) (remainingXvsDailyLimitUsd env)) eqn:E;
      [|reflexivity].
    apply (bn_gt_num_mono _ (a * p) _ Hmul) in E. congruence.
Qed.

Lemma valid_amount_downward_closed_witness :
  validateAmountMantissa (scenario_env 100 1 1000 (bn_of_Z 1000) 0) "20" = [].
Proof.
  apply (valid_amount_downward_closed (scenario_env 100 1 1000 (bn_of_Z 1000) 0)
           "50" "20" (inject_Z 50) (inject_Z 20) (inject_Z 1));
    try reflexivity; vm_compute; discriminate.
Defined.


Definition no_status_env : BridgeFormEnv :=
  {| tokenUsdPriceData := Some (bn_of_Z 2);
     xvsBridgeStatusData := None;
     nativeTokenBalanceData := None;
     walletBalanceTokens := bn_of_Z 100;
     localTimeZone := utc_zone |}.


(** Without price data the price falls back to 0: a finite amount is then
    worth 0 USD and never exceeds a non-negative single-transaction limit or
    remaining daily amount; only the balance test can fail. *)
Theorem no_price_only_balance_checked (env : BridgeFormEnv) (v : string) (a : Q) :
  tokenUsdPriceData env = None -> new_BigNumber v = BNum a ->
  bn_lte bn_zero (maxSingleTransactionLimitUsd env) = true ->
  bn_lte bn_zero (remainingXvsDailyLimitUsd env) = true ->
  validateAmountMantissa env v
  = if bn_lt (walletBalanceTokens env) (BNum a) then [DoesNotHaveEnoughXvs] else [].
Proof.
  intros Hp Hv Hs Hd.
  assert (Hz : forall s, bn_lte bn_zero s = true -> bn_gt (BNum (a * 0)) s = false).
  { intros s Hs0. destruct (bn_gt (BNum (a * 0)) s) eqn:E; [|reflexivity].
    exfalso. destruct s as [qs| |[]]; try discriminate.
    apply bn_lte_num in Hs0. apply bn_gt_num_num in E. lra. }
  rewrite validateAmountMantissa_tests; unfold xvsPriceUsd; rewrite ?Hp, ?Hv;
    [reflexivity| apply Hz; assumption | apply Hz; assumption].
Qed.

Definition no_price_env : BridgeFormEnv :=
  {| tokenUsdPriceData := None;
     xvsBridgeStatusData := Some (mkBridgeStatus (bn_of_Z 1000) (bn_of_Z 1000)
                                                 (bn_of_Z 0) (bn_of_Z 1700000000));
     nativeTokenBalanceData := None;
     walletBalanceTokens := bn_of_Z 10;
     localTimeZone := utc_zone |}.

Lemma no_price_only_balance_checked_witness :
  validateAmountMantissa no_price_env "50000"
  = if bn_lt (bn_of_Z 10) (BNum (inject_Z 50000)) then [DoesNotHaveEnoughXvs] else [].
Proof.
  apply (no_price_only_balance_checked no_price_env "50000" (inject_Z 50000));
    reflexivity.
Defined.





(** Fee check: a fee of 0 never passes, and while the native-token balance
    is not loaded (it falls back to 0) no BigNumber fee passes. *)
Theorem bridge_fee_zero_or_no_balance_rejected (env : BridgeFormEnv) :
  validateBridgeFeeMantissa env (JsBigNumber bn_zero) = false
  /\ (nativeTokenBalanceData env = None ->
      forall b : BigNumber, validateBridgeFeeMantissa env (JsBigNumber b) = false).
Proof.
  split; [reflexivity|].
  intros Hnone b. unfold validateBridgeFeeMantissa, nativeTokenBalanceMantissa.
  rewrite Hnone.
  destruct b as [q| |[]]; try reflexivity.
  unfold bn_gt, bn_lte, bn_zero; simpl.
  destruct (q ?= 0)%Q; reflexivity.
Qed.

Lemma bridge_fee_zero_or_no_balance_rejected_witness :
  validateBridgeFeeMantissa no_status_env (JsBigNumber (bn_of_Z 3)) = false.
Proof.
  exact (proj2 (bridge_fee_zero_or_no_balance_rejected no_status_env) eq_refl
           (bn_of_Z 3)).
Defined.

(** ** Chain fields of the bridge form

    [ChainId] is a numeric enum; BSC mainnet and testnet are 56 and 97.
    [chains] (packages/wallet) is the list of supported chains, modelled by
    their id and the name of their native currency.  The form's [toChainId]
    may be [undefined] ([None]), as [chains.find(...)?.id] may be. *)

Definition BSC_MAINNET : Z := 56.
Definition BSC_TESTNET : Z := 97.

Definition is_bsc (chainId : Z) : bool :=
  ((chainId =? BSC_MAINNET) || (chainId =? BSC_TESTNET))%Z%bool.

Record Chain : Type := mkChain {
  chain_id : Z;
  nativeCurrency_name : string;
}.

Record ChainFields : Type := mkChainFields {
  fromChainId : Z;
  toChainId : option Z;
}.

(** The chain fields of [defaultValues]. *)
Definition defaultChainFields (chains : list Chain) (chainId : Z) : ChainFields :=
  {| fromChainId := chainId;
     toChainId :=
       option_map chain_id (find (fun chain => negb (chain_id chain =? chainId)%Z) chains) |}.

(** The effect that follows the wallet's chain: [formFromChainId] is the
    origin read at render time; both [setValue] calls take effect. *)
Definition syncChainFields (chains : list Chain) (chainId : Z) (form : ChainFields)
  : ChainFields :=
  let previousFromChainId := fromChainId form in
  if negb (chainId =? fromChainId form)%Z then
    if (negb (chainId =? BSC_MAINNET) && negb (chainId =? BSC_TESTNET))%Z%bool then
      let bscChainId :=
        option_map chain_id
          (find (fun c => String.eqb (nativeCurrency_name c) "BNB") chains) in
      {| fromChainId := chainId; toChainId := bscChainId |}
    else {| fromChainId := chainId; toChainId := Some previousFromChainId |}
  else form.

Definition sample_chains : list Chain :=
  [mkChain 1%Z "Ether"; mkChain 56%Z "BNB"; mkChain 11155111%Z "Sepolia Ether"].

Example sync_to_ethereum :
  syncChainFields sample_chains 1%Z (mkChainFields 56%Z (Some 1%Z))
  = mkChainFields 1%Z (Some 56%Z).
Proof. reflexivity. Qed.

(** The default destination is another supported chain than the origin;
    it is [undefined] exactly when every supported chain is the origin's. *)
Theorem default_destination_differs (chains : list Chain) (chainId : Z) :
  fromChainId (defaultChainFields chains chainId) = chainId
  /\ (forall t : Z, toChainId (defaultChainFields chains chainId) = Some t ->
        t <> chainId /\ exists c, In c chains /\ chain_id c = t)
  /\ (toChainId (defaultChainFields chains chainId) = None <->
      Forall (fun c => chain_id c = chainId) chains).
Proof.
  unfold defaultChainFields; simpl. split; [reflexivity|]. split.
  - intros t Ht.
    destruct (find _ chains) as [c|] eqn:Hf; simpl in Ht; [|discriminate].
    injection Ht as <-. apply find_some in Hf as [Hin Hc].
    split; [|exists c; split; [exact Hin|reflexivity]].
    apply negb_true_iff, Z.eqb_neq in Hc. exact Hc.
  - split.
    + intros Hn. destruct (find _ chains) eqn:Hf; simpl in Hn; [discriminate|].
      apply Forall_forall. intros c Hin. pose proof (find_none _ _ Hf c Hin) as Hc.
      apply negb_false_iff, Z.eqb_eq in Hc. exact Hc.
    + intros Hall. destruct (find _ chains) as [c|] eqn:Hf; [|reflexivity].
      apply find_some in Hf as [Hin Hc].
      rewrite Forall_forall in Hall. rewrite (Hall c Hin), Z.eqb_refl in Hc.
      discriminate.
Qed.

Lemma default_destination_differs_witness :
  toChainId (defaultChainFields sample_chains 1%Z) = Some 56%Z
  /\ 56%Z <> 1%Z /\ exists c, In c sample_chains /\ chain_id c = 56%Z.
Proof.
  split; [reflexivity|].
  exact (proj1 (proj2 (default_destination_differs sample_chains 1%Z)) 56%Z eq_refl).
Defined.

(** After the effect the origin is the wallet's chain, and running the
    effect again changes nothing. *)
Theorem syncChainFields_settles (chains : list Chain) (chainId : Z)
  (form : ChainFields) :
  fromChainId (syncChainFields chains chainId form) = chainId
  /\ syncChainFields chains chainId (syncChainFields chains chainId form)
     = syncChainFields chains chainId form.
Proof.
  assert (Hfrom : fromChainId (syncChainFields chains chainId form) = chainId).
  { unfold syncChainFields.
    destruct (chainId =? fromChainId form)%Z eqn:E; simpl.
    - apply Z.eqb_eq in E. symmetry. exact E.
    - destruct (negb (chainId =? BSC_MAINNET) && negb (chainId =? BSC_TESTNET))%Z%bool;
        reflexivity. }
  set (g := syncChainFields chains chainId form) in *.
  split; [exact Hfrom|].
  unfold syncChainFields at 1. rewrite Hfrom, Z.eqb_refl. reflexivity.
Qed.

(** When the wallet moves to another chain, and every supported chain whose
    native currency is named BNB is a BSC chain (with one such chain
    supported), the effect leaves a destination that differs from the
    origin, and one end of the bridge is a BSC chain. *)
Theorem syncChainFields_bsc_end (chains : list Chain) (chainId : Z)
  (form : ChainFields) :
  chainId <> fromChainId form ->
  (forall c, In c chains -> nativeCurrency_name c = "BNB" -> is_bsc (chain_id c) = true) ->
  (exists c, In c chains /\ nativeCurrency_name c = "BNB") ->
  exists t, toChainId (syncChainFields chains chainId form) = Some t
            /\ t <> chainId /\ (is_bsc chainId || is_bsc t)%bool = true.
Proof.
  intros Hne Hbnb [c0 [Hin0 Hname0]]. unfold syncChainFields.
  apply Z.eqb_neq in Hne. rewrite Hne. simpl.
  destruct (negb (chainId =? BSC_MAINNET) && negb (chainId =? BSC_TESTNET))%Z%bool
    eqn:Hb; simpl.
  - destruct (find (fun c => String.eqb (nativeCurrency_name c) "BNB") chains)
      as [c|] eqn:Hf.
    + apply find_some in Hf as [Hin Hc]. apply String.eqb_eq in Hc.
      pose proof (Hbnb c Hin Hc) as Hbsc.
      exists (chain_id c). simpl. split; [reflexivity|]. split.
      * intros Heq. rewrite Heq in Hbsc. unfold is_bsc in Hbsc.
        apply andb_true_iff in Hb as [H1 H2]. apply negb_true_iff in H1, H2.
        rewrite H1, H2 in Hbsc. discriminate.
      * rewrite Hbsc, orb_true_r. reflexivity.
    + pose proof (find_none _ _ Hf c0 Hin0) as Hc. simpl in Hc.
      rewrite Hname0 in Hc. discriminate.
  - exists (fromChainId form). split; [reflexivity|]. split.
    + intros Heq. rewrite Heq, Z.eqb_refl in Hne. discriminate.
    + unfold is_bsc. apply andb_false_iff in Hb as [H|H];
        apply negb_false_iff in H; rewrite H; simpl; rewrite ?orb_true_r; reflexivity.
Qed.

Lemma syncChainFields_bsc_end_witness :
  exists t, toChainId (syncChainFields sample_chains 1%Z (mkChainFields 56%Z (Some 1%Z)))
            = Some t /\ t <> 1%Z /\ (is_bsc 1%Z || is_bsc t)%bool = true.
Proof.
  apply syncChainFields_bsc_end.
  - discriminate.
  - intros c Hin Hc. simpl in Hin.
    destruct Hin as [<-|[<-|[<-|[]]]]; simpl in Hc; try discriminate; reflexivity.
  - exists (mkChain 56%Z "BNB"). split; [simpl; auto|reflexivity].
Defined.

